(** * SQLAlchemyMealRepository

    A shallow embedding of
    [backend/infrastructure/sqlalchemy/repositories/meal.py]: the meal
    repository and the part of the SQLAlchemy session it drives (a scoped
    session, its enclosing transaction, [execute], [add], [commit] and the
    [scalar_one_or_none] result accessor), followed by the properties of the
    five repository operations. *)

From Stdlib Require Import ZArith List String Bool Lia.
Import ListNotations.

Local Open Scope Z_scope.
Local Open Scope bool_scope.

(* ================================================================= *)
(** ** Data model *)

(** [datetime.date]: compared with [==], field by field. *)
Module Date.
Record t : Set := mk { year : Z; month : Z; day : Z }.

Definition eqb (a b : t) : bool :=
  (year a =? year b) && (month a =? month b) && (day a =? day b).
End Date.

(** The domain entity [backend.domain.entities.meal.Meal].  Its declaration is
    not part of the repository file; the types of [calorie] and of a comment
    are left open. *)
Module Meal.
Section Entity.
Variables Calorie Comment : Type.

Record t : Type := mk {
  name : string;
  dish_name : string;
  calorie : Calorie;
  date : Date.t;
  comments : list Comment
}.
End Entity.

Arguments mk {Calorie Comment} _ _ _ _ _.
Arguments name {Calorie Comment} _.
Arguments dish_name {Calorie Comment} _.
Arguments calorie {Calorie Comment} _.
Arguments date {Calorie Comment} _.
Arguments comments {Calorie Comment} _.
End Meal.

(** A row of the school-info table. *)
Module SchoolInfoSchema.
Record t : Set := mk {
  id : Z;
  edu_office_code : string;
  standard_school_code : string
}.
End SchoolInfoSchema.

(** A row of the meal table, and the keyword arguments of the [MealSchema]
    constructor: an object built by the constructor has no [id] until it is
    flushed. *)
Module MealSchema.
Section Row.
Variables Calorie Comment : Type.

Record t : Type := mk {
  id : Z;
  school_info_id : Z;
  name : string;
  dish_name : string;
  calorie : Calorie;
  date : Date.t;
  comments : list Comment
}.

Record init : Type := new {
  init_school_info_id : Z;
  init_name : string;
  init_dish_name : string;
  init_calorie : Calorie;
  init_date : Date.t;
  init_comments : list Comment
}.

(** Modelled from the spec: [MealSchema.to_entity], declared with the
    schema and not in the repository file.  The spec has it convert a
    persisted row to the domain entity, which carries the row's [name],
    [dish_name], [calorie], [date] and [comments] and not its [id]. *)
Definition to_entity (schema : t) : Meal.t Calorie Comment :=
  Meal.mk (name schema) (dish_name schema) (calorie schema) (date schema)
          (comments schema).
End Row.

Arguments mk {Calorie Comment} _ _ _ _ _ _ _.
Arguments id {Calorie Comment} _.
Arguments school_info_id {Calorie Comment} _.
Arguments name {Calorie Comment} _.
Arguments dish_name {Calorie Comment} _.
Arguments calorie {Calorie Comment} _.
Arguments date {Calorie Comment} _.
Arguments comments {Calorie Comment} _.
Arguments new {Calorie Comment} _ _ _ _ _ _.
Arguments init_school_info_id {Calorie Comment} _.
Arguments init_name {Calorie Comment} _.
Arguments init_dish_name {Calorie Comment} _.
Arguments init_calorie {Calorie Comment} _.
Arguments init_date {Calorie Comment} _.
Arguments init_comments {Calorie Comment} _.
Arguments to_entity {Calorie Comment} _.
End MealSchema.

(** [backend.domain.enum.CreateMealStatus]; the repository uses one member. *)
Inductive CreateMealStatus : Set := SCHOOL_INFO_NOT_FOUND.

(** The integers that every engine binds to an INTEGER key column: the
    signed 32-bit range.  A lookup by a key outside the range of the column
    is refused by the driver or by the database before any row is compared;
    the statements below do not model that refusal, and a lookup by a key
    given from outside is stated for keys in this range. *)
Definition key_in_range (meal_id : Z) : Prop :=
  - 2 ^ 31 <= meal_id < 2 ^ 31.

(** What a call can raise: SQLAlchemy's [MultipleResultsFound], or an error
    reported by the database itself. *)
Inductive exn : Set := MultipleResultsFound | DBAPIError.

Inductive outcome (A : Type) : Type :=
| Returned (a : A)
| Raised (e : exn).

Arguments Returned {A} a.
Arguments Raised {A} e.

(* ================================================================= *)
(** ** A state and exception monad *)

Definition ST (S A : Type) : Type := S -> outcome A * S.

Definition ret {S A : Type} (a : A) : ST S A := fun s => (Returned a, s).

Definition bind {S A B : Type} (c : ST S A) (k : A -> ST S B) : ST S B :=
  fun s =>
    match c s with
    | (Returned a, s') => k a s'
    | (Raised e, s') => (Raised e, s')
    end.

(** An outcome computed without touching the state. *)
Definition lift {S A : Type} (o : outcome A) : ST S A := fun s => (o, s).

Declare Scope st_scope.
Delimit Scope st_scope with st.

Notation "x <- c ;; k" := (bind c (fun x => k))
  (at level 61, c at next level, right associativity) : st_scope.
Notation "c ;; k" := (bind c (fun _ => k))
  (at level 61, right associativity) : st_scope.

Local Open Scope st_scope.

Section Repository.

Variables Calorie Comment : Type.

Abbreviation MealT := (Meal.t Calorie Comment).
Abbreviation Row := (MealSchema.t Calorie Comment).
Abbreviation RowInit := (MealSchema.init Calorie Comment).

(* =============================================================== *)
(** ** The database *)

(** The two tables, in storage order, and the sequence that hands out the
    primary keys of new meal rows. *)
Record DB : Type := mkDB {
  school_infos : list SchoolInfoSchema.t;
  meals : list Row;
  meal_id_seq : Z
}.

Definition meal_ids (db : DB) : list Z := map MealSchema.id (meals db).

(** The primary key of the meal table: no key twice, every key already
    handed out by the sequence. *)
Definition ids_below_seq (db : DB) : Prop :=
  Forall (fun i => i < meal_id_seq db) (meal_ids db).

Definition wf_db (db : DB) : Prop :=
  NoDup (meal_ids db) /\ ids_below_seq db.

(** INSERT of one meal row: the sequence provides the key.  The key is taken
    to be new, as [ids_below_seq] guarantees: the refusal of a key that is
    already stored is not modelled, and what is stated of a successful insert
    is stated under that invariant or of a call known to have succeeded. *)
Definition insert_meal (kw : RowInit) (db : DB) : Row * DB :=
  let row :=
    MealSchema.mk (meal_id_seq db)
                  (MealSchema.init_school_info_id kw)
                  (MealSchema.init_name kw)
                  (MealSchema.init_dish_name kw)
                  (MealSchema.init_calorie kw)
                  (MealSchema.init_date kw)
                  (MealSchema.init_comments kw) in
  (row, mkDB (school_infos db) (meals db ++ [row]) (meal_id_seq db + 1)).

(* =============================================================== *)
(** ** The session *)

(** An object the session tracks is pending (added, not yet inserted) or
    persistent (it has a row, hence an [id]). *)
Inductive instance : Type :=
| Pending (kw : RowInit)
| Persistent (row : Row).

(** [committed] is what the database holds durably, [database] what the
    open transaction sees, [identity_map] the objects added through this
    session; an object is referred to by its position there. *)
Record Session : Type := mkSession {
  committed : DB;
  database : DB;
  identity_map : list instance
}.

Fixpoint flush_objects (objs : list instance) (db : DB)
  : list instance * DB :=
  match objs with
  | [] => ([], db)
  | Persistent row :: rest =>
      let (rest', db') := flush_objects rest db in
      (Persistent row :: rest', db')
  | Pending kw :: rest =>
      let (row, db1) := insert_meal kw db in
      let (rest', db') := flush_objects rest db1 in
      (Persistent row :: rest', db')
  end.

Definition flush (s : Session) : Session :=
  let (objs, db) := flush_objects (identity_map s) (database s) in
  mkSession (committed s) db objs.

(** [session.execute(stmt)]: pending objects are flushed first, then the
    statement is evaluated in the transaction. *)
Definition session_execute {A : Type} (stmt : DB -> outcome (list A))
  : ST Session (list A) :=
  fun s => let s' := flush s in (stmt (database s'), s').

(** [session.add(obj)]; the result is the handle of the object. *)
Definition session_add (kw : RowInit) : ST Session nat :=
  fun s =>
    (Returned (List.length (identity_map s)),
     mkSession (committed s) (database s) (identity_map s ++ [Pending kw])).

(** [session.commit()]. *)
Definition session_commit : ST Session unit :=
  fun s =>
    let s' := flush s in
    (Returned tt, mkSession (database s') (database s') (identity_map s')).

(** Reading [obj.id]: [None] as long as the object has no row. *)
Definition instance_id (h : nat) : ST Session (option Z) :=
  fun s =>
    (Returned match nth_error (identity_map s) h with
              | Some (Persistent row) => Some (MealSchema.id row)
              | _ => None
              end,
     s).

(** [async with self.sa.session_maker() as session:
       async with session.begin(): body]
    A fresh session on the current database; leaving the block commits
    when the body returned and rolls back when it raised. *)
Definition with_session_begin {A : Type} (body : ST Session A)
  : ST DB A :=
  fun db =>
    match body (mkSession db db []) with
    | (Returned a, s) =>
        let (_, s') := session_commit s in (Returned a, committed s')
    | (Raised e, s) => (Raised e, committed s)
    end.

(** [Result.scalar_one_or_none()]. *)
Definition scalar_one_or_none {A : Type} (rows : list A)
  : outcome (option A) :=
  match rows with
  | [] => Returned None
  | [x] => Returned (Some x)
  | _ :: _ :: _ => Raised MultipleResultsFound
  end.

(* =============================================================== *)
(** ** Statements *)

(** [SchoolInfoSchema.edu_office_code == edu_office_code,
     SchoolInfoSchema.standard_school_code == standard_school_code] *)
Definition code_matches (edu_office_code standard_school_code : string)
                        (s : SchoolInfoSchema.t) : bool :=
  String.eqb (SchoolInfoSchema.edu_office_code s) edu_office_code
  && String.eqb (SchoolInfoSchema.standard_school_code s)
                standard_school_code.

(** [select(SchoolInfoSchema).where(...)] *)
Definition select_school_info (edu_office_code standard_school_code : string)
                              (db : DB) : list SchoolInfoSchema.t :=
  filter (code_matches edu_office_code standard_school_code)
         (school_infos db).

(** [select(SchoolInfoSchema.id).where(...)] *)
Definition select_school_info_id
           (edu_office_code standard_school_code : string) (db : DB)
  : list Z :=
  map SchoolInfoSchema.id
      (select_school_info edu_office_code standard_school_code db).

(** [SchoolInfoSchema.meals.and_(MealSchema.date == date)] for one school:
    the rows whose foreign key is the school's [id], on that date. *)
Definition meals_and_date (school : SchoolInfoSchema.t) (date : Date.t)
                          (db : DB) : list Row :=
  filter (fun m => (MealSchema.school_info_id m =? SchoolInfoSchema.id school)
                   && Date.eqb (MealSchema.date m) date)
         (meals db).

(** [select(SchoolInfoSchema).where(...).options(selectinload(...))]: every
    selected school with its loaded [meals] collection. *)
Definition select_school_info_selectinload
           (edu_office_code standard_school_code : string) (date : Date.t)
           (db : DB) : list (SchoolInfoSchema.t * list Row) :=
  map (fun school => (school, meals_and_date school date db))
      (select_school_info edu_office_code standard_school_code db).

(** [select(MealSchema).where(MealSchema.id == meal_id)] *)
Definition select_meal_by_id (meal_id : Z) (db : DB) : list Row :=
  filter (fun m => MealSchema.id m =? meal_id) (meals db).

(** What the database makes of a scalar subquery that yields several rows
    is not fixed by the repository (an error in standard SQL, the first row
    in some engines): it is a parameter.  It is evaluated here once per
    statement; an engine may evaluate it only when a meal row is tested, so
    what is stated of [get_id_by_code] for a code pair that several
    school-info rows carry is limited to what holds either way. *)
Variable subquery_many : list Z -> outcome (option Z).

(** [.scalar_subquery()]: NULL for no row, the value for one. *)
Definition scalar_subquery (rows : list Z) : outcome (option Z) :=
  match rows with
  | [] => Returned None
  | [x] => Returned (Some x)
  | _ :: _ :: _ => subquery_many rows
  end.

(** SQL [=] against a possibly NULL value: never true for NULL. *)
Definition sql_eq (a : Z) (b : option Z) : bool :=
  match b with
  | Some v => a =? v
  | None => false
  end.

(** [select(MealSchema.id).where(
       MealSchema.school_info_id == school_info_subquery,
       MealSchema.date == date, MealSchema.name == meal_name)] *)
Definition select_meal_id
           (school_info_subquery : DB -> outcome (option Z))
           (date : Date.t) (meal_name : string) (db : DB)
  : outcome (list Z) :=
  match school_info_subquery db with
  | Returned sid =>
      Returned
        (map MealSchema.id
             (filter (fun m => sql_eq (MealSchema.school_info_id m) sid
                               && Date.eqb (MealSchema.date m) date
                               && String.eqb (MealSchema.name m) meal_name)
                     (meals db)))
  | Raised e => Raised e
  end.

(* =============================================================== *)
(** ** The repository *)

Definition _get_schema_by_code
           (edu_office_code standard_school_code : string) (date : Date.t)
  : ST DB (list Row) :=
  with_session_begin
    (result <- session_execute
                 (fun db => Returned (select_school_info_selectinload
                                        edu_office_code standard_school_code
                                        date db)) ;;
     ret (flat_map (fun school_info => snd school_info) result)).

Definition get_by_code
           (edu_office_code standard_school_code : string) (date : Date.t)
  : ST DB (list MealT) :=
  meal_schemas <- _get_schema_by_code edu_office_code standard_school_code
                                      date ;;
  ret (map MealSchema.to_entity meal_schemas).

Definition get_by_id (meal_id : Z) : ST DB (option MealT) :=
  with_session_begin
    (result <- session_execute
                 (fun db => Returned (select_meal_by_id meal_id db)) ;;
     meal_schema <- lift (scalar_one_or_none result) ;;
     ret match meal_schema with
         | Some schema => Some (MealSchema.to_entity schema)
         | None => None
         end).

Definition get_with_id_by_code
           (edu_office_code standard_school_code : string) (date : Date.t)
  : ST DB (list (Z * MealT)) :=
  meal_schemas <- _get_schema_by_code edu_office_code standard_school_code
                                      date ;;
  ret (map (fun schema => (MealSchema.id schema,
                           MealSchema.to_entity schema))
           meal_schemas).

Definition get_id_by_code
           (edu_office_code standard_school_code : string) (date : Date.t)
           (meal_name : string)
  : ST DB (option Z) :=
  with_session_begin
    (let school_info_subquery :=
       fun db => scalar_subquery
                   (select_school_info_id edu_office_code
                                          standard_school_code db) in
     result <- session_execute
                 (select_meal_id school_info_subquery date meal_name) ;;
     lift (scalar_one_or_none result)).

Definition create_by_code
           (edu_office_code standard_school_code : string) (meal : MealT)
  : ST DB (CreateMealStatus + option Z) :=
  with_session_begin
    (result <- session_execute
                 (fun db => Returned (select_school_info_id
                                        edu_office_code standard_school_code
                                        db)) ;;
     school_info_id <- lift (scalar_one_or_none result) ;;
     match school_info_id with
     | None => ret (inl SCHOOL_INFO_NOT_FOUND)
     | Some school_info_id =>
         let meal_schema :=
           MealSchema.new school_info_id
                          (Meal.name meal)
                          (Meal.dish_name meal)
                          (Meal.calorie meal)
                          (Meal.date meal)
                          [] in
         h <- session_add meal_schema ;;
         session_commit ;;
         new_id <- instance_id h ;;
         ret (inr new_id)
     end).

(* =============================================================== *)
(** ** Vocabulary of the properties *)

(** The meal rows of the schools carrying a code pair, on a date and for a
    slot name: the join of the two tables, stated without the session. *)
Definition belongs_to_code (edu_office_code standard_school_code : string)
                           (db : DB) (m : Row) : bool :=
  existsb (fun s => code_matches edu_office_code standard_school_code s
                    && (MealSchema.school_info_id m =? SchoolInfoSchema.id s))
          (school_infos db).

Definition meals_matching (edu_office_code standard_school_code : string)
                          (date : Date.t) (meal_name : string) (db : DB)
  : list Row :=
  filter (fun m => belongs_to_code edu_office_code standard_school_code db m
                   && Date.eqb (MealSchema.date m) date
                   && String.eqb (MealSchema.name m) meal_name)
         (meals db).

End Repository.

Arguments mkDB {Calorie Comment} _ _ _.
Arguments school_infos {Calorie Comment} _.
Arguments meals {Calorie Comment} _.
Arguments meal_id_seq {Calorie Comment} _.
Arguments meal_ids {Calorie Comment} _.
Arguments ids_below_seq {Calorie Comment} _.
Arguments wf_db {Calorie Comment} _.
Arguments insert_meal {Calorie Comment} _ _.
Arguments Pending {Calorie Comment} _.
Arguments Persistent {Calorie Comment} _.
Arguments mkSession {Calorie Comment} _ _ _.
Arguments committed {Calorie Comment} _.
Arguments database {Calorie Comment} _.
Arguments identity_map {Calorie Comment} _.
Arguments flush_objects {Calorie Comment} _ _.
Arguments flush {Calorie Comment} _.
Arguments session_execute {Calorie Comment A} _ _.
Arguments session_add {Calorie Comment} _ _.
Arguments session_commit {Calorie Comment} _.
Arguments instance_id {Calorie Comment} _ _.
Arguments with_session_begin {Calorie Comment A} _ _.
Arguments scalar_one_or_none {A} _.
Arguments select_school_info {Calorie Comment} _ _ _.
Arguments select_school_info_id {Calorie Comment} _ _ _.
Arguments meals_and_date {Calorie Comment} _ _ _.
Arguments select_school_info_selectinload {Calorie Comment} _ _ _ _.
Arguments select_meal_by_id {Calorie Comment} _ _.
Arguments select_meal_id {Calorie Comment} _ _ _ _.
Arguments _get_schema_by_code {Calorie Comment} _ _ _ _.
Arguments get_by_code {Calorie Comment} _ _ _ _.
Arguments get_by_id {Calorie Comment} _ _.
Arguments get_with_id_by_code {Calorie Comment} _ _ _ _.
Arguments get_id_by_code {Calorie Comment} _ _ _ _ _ _.
Arguments create_by_code {Calorie Comment} _ _ _ _.
Arguments belongs_to_code {Calorie Comment} _ _ _ _.
Arguments meals_matching {Calorie Comment} _ _ _ _ _.

(* ================================================================= *)
(** ** Statements of the specification, as predicates *)

Section Statements.
Context {Calorie Comment : Type}.
Variable subquery_many : list Z -> outcome (option Z).

(** The row a successful [create_by_code] stores for [meal] under [school]:
    keyed by the sequence, the four attributes taken from the entity, no
    comment. *)
Definition created_row (db : DB Calorie Comment) (school : SchoolInfoSchema.t)
           (meal : Meal.t Calorie Comment) : MealSchema.t Calorie Comment :=
  MealSchema.mk (meal_id_seq db) (SchoolInfoSchema.id school)
                (Meal.name meal) (Meal.dish_name meal) (Meal.calorie meal)
                (Meal.date meal) [].

(** The two id lookups agree on a state: every entry of
    [get_with_id_by_code] whose meal carries [meal_name] has the id that
    [get_id_by_code] returns for [meal_name]. *)
Definition id_lookups_agree (db : DB Calorie Comment)
           (edu_office_code standard_school_code : string) (date : Date.t)
           (meal_name : string) : Prop :=
  forall entries i entity,
    fst (get_with_id_by_code edu_office_code standard_school_code date db)
    = Returned entries ->
    In (i, entity) entries ->
    Meal.name entity = meal_name ->
    fst (get_id_by_code subquery_many edu_office_code standard_school_code
                        date meal_name db)
    = Returned (Some i).

(** [get_id_by_code] is decided by the number of meal rows that match the
    school, the date and the name: none gives [None], one gives its id,
    several raise [MultipleResultsFound]. *)
Definition id_lookup_by_multiplicity (db : DB Calorie Comment)
           (edu_office_code standard_school_code : string) (date : Date.t)
           (meal_name : string) : Prop :=
  let rows := meals_matching edu_office_code standard_school_code date
                             meal_name db in
  let result := fst (get_id_by_code subquery_many edu_office_code
                                    standard_school_code date meal_name db) in
  ((2 <= List.length rows)%nat -> result = Raised MultipleResultsFound)
  /\ (result = Returned None <-> rows = [])
  /\ (forall i, result = Returned (Some i)
                <-> exists row, rows = [row] /\ MealSchema.id row = i).

End Statements.

(* ================================================================= *)
(** ** Sample states *)

Module Sample.

(** Standard SQL: a scalar subquery with several rows is an error. *)
Definition strict : list Z -> outcome (option Z) :=
  fun _ => Raised DBAPIError.

(** Engines that keep the first row of such a subquery. *)
Definition first_row : list Z -> outcome (option Z) :=
  fun rows => Returned (hd_error rows).

Definition monday : Date.t := Date.mk 2024 3 4.
Definition tuesday : Date.t := Date.mk 2024 3 5.

Definition school : SchoolInfoSchema.t :=
  SchoolInfoSchema.mk 1 "B10" "7010057".

(** A second row carrying the same code pair. *)
Definition twin : SchoolInfoSchema.t :=
  SchoolInfoSchema.mk 2 "B10" "7010057".

(** Calories as whole numbers, comments as text. *)
Definition lunch : Meal.t Z string :=
  Meal.mk "중식" "bibimbap" 850 monday ["more please"%string].

Definition lunch_row (i sid : Z) : MealSchema.t Z string :=
  MealSchema.mk i sid "중식" "bibimbap" 850 monday [].

(** One school, no meal yet. *)
Definition db_school : DB Z string := mkDB [school] [] 1.

(** The lunch stored once for the one school. *)
Definition db_lunch : DB Z string := mkDB [school] [lunch_row 1 1] 2.

(** The same lunch stored twice for the one school. *)
Definition db_twice : DB Z string :=
  mkDB [school] [lunch_row 1 1; lunch_row 2 1] 3.

(** Two schools sharing the code pair; one lunch, owned by the second. *)
Definition db_twins : DB Z string :=
  mkDB [school; twin] [lunch_row 1 2] 2.

End Sample.

(* ================================================================= *)
(** ** Properties *)

Section Facts.
Context {Calorie Comment : Type}.
Variable subquery_many : list Z -> outcome (option Z).

Implicit Types (db : DB Calorie Comment) (meal : Meal.t Calorie Comment).
Implicit Types (row : MealSchema.t Calorie Comment).
Implicit Types (edu_office_code standard_school_code meal_name : string).
Implicit Types (date : Date.t).

(** *** Comparisons and filters *)

Lemma date_eqb_eq (a b : Date.t) : Date.eqb a b = true <-> a = b.
Proof.
  destruct a as [y m d], b as [y' m' d']; unfold Date.eqb; simpl.
  rewrite !andb_true_iff, !Z.eqb_eq. split.
  - intros [[-> ->] ->]. reflexivity.
  - intros E. injection E as -> -> ->. auto.
Qed.

Lemma code_matches_iff edu_office_code standard_school_code s :
  code_matches edu_office_code standard_school_code s = true
  <-> SchoolInfoSchema.edu_office_code s = edu_office_code
      /\ SchoolInfoSchema.standard_school_code s = standard_school_code.
Proof.
  unfold code_matches. rewrite andb_true_iff, !String.eqb_eq. reflexivity.
Qed.

Lemma filter_none {A : Type} (f : A -> bool) (l : list A) :
  (forall x, In x l -> f x = false) -> filter f l = [].
Proof.
  induction l as [|x l IH]; intros H; simpl; [reflexivity|].
  rewrite (H x (or_introl eq_refl)). apply IH. intros y Hy. apply H. now right.
Qed.

Lemma filter_all {A : Type} (f : A -> bool) (l : list A) :
  (forall x, In x l -> f x = true) -> filter f l = l.
Proof.
  induction l as [|x l IH]; intros H; simpl; [reflexivity|].
  rewrite (H x (or_introl eq_refl)). f_equal. apply IH. intros y Hy.
  apply H. now right.
Qed.

Lemma select_school_info_none db edu_office_code standard_school_code :
  (forall s, In s (school_infos db) ->
             ~ (SchoolInfoSchema.edu_office_code s = edu_office_code
                /\ SchoolInfoSchema.standard_school_code s
                   = standard_school_code)) ->
  select_school_info edu_office_code standard_school_code db = [].
Proof.
  intros H. apply filter_none. intros s Hs.
  destruct (code_matches edu_office_code standard_school_code s) eqn:E;
    [|reflexivity].
  apply code_matches_iff in E. elim (H s Hs E).
Qed.

(** *** The session *)

(** A session that tracks no object flushes nothing. *)
Lemma flush_empty (c d : DB Calorie Comment) :
  flush (mkSession c d []) = mkSession c d [].
Proof. reflexivity. Qed.

(** A block that only evaluates one statement and post-processes its rows
    returns what the post-processing gives and leaves the database alone. *)
Lemma with_session_begin_select {A B : Type}
      (stmt : DB Calorie Comment -> outcome (list A))
      (post : list A -> outcome B) db :
  with_session_begin (result <- session_execute stmt ;; lift (post result)) db
  = (match stmt db with
     | Returned rows => post rows
     | Raised e => Raised e
     end, db).
Proof.
  unfold with_session_begin, bind, session_execute, lift. simpl.
  destruct (stmt db) as [rows|e]; [|reflexivity].
  destruct (post rows); reflexivity.
Qed.

Lemma _get_schema_by_code_eq db edu_office_code standard_school_code date :
  _get_schema_by_code edu_office_code standard_school_code date db
  = (Returned
       (flat_map (fun school => meals_and_date school date db)
                 (select_school_info edu_office_code standard_school_code db)),
     db).
Proof.
  unfold _get_schema_by_code, with_session_begin, bind, session_execute, ret.
  simpl. unfold select_school_info_selectinload.
  rewrite flat_map_concat_map, map_map, <- flat_map_concat_map. reflexivity.
Qed.

Lemma get_by_id_eq db meal_id :
  get_by_id meal_id db
  = (match scalar_one_or_none (select_meal_by_id meal_id db) with
     | Returned (Some schema) => Returned (Some (MealSchema.to_entity schema))
     | Returned None => Returned None
     | Raised e => Raised e
     end, db).
Proof.
  unfold get_by_id, with_session_begin, bind, session_execute, lift, ret.
  simpl.
  destruct (scalar_one_or_none (select_meal_by_id meal_id db)) as [[schema|]|e];
    reflexivity.
Qed.

Lemma get_id_by_code_eq db edu_office_code standard_school_code date meal_name :
  get_id_by_code subquery_many edu_office_code standard_school_code date
                 meal_name db
  = (match select_meal_id
             (fun db => scalar_subquery subquery_many
                          (select_school_info_id edu_office_code
                                                 standard_school_code db))
             date meal_name db with
     | Returned rows => scalar_one_or_none rows
     | Raised e => Raised e
     end, db).
Proof. unfold get_id_by_code. apply with_session_begin_select. Qed.

(** C1. When no school-info row carries the code pair, [create_by_code]
    returns the [SCHOOL_INFO_NOT_FOUND] value, raises nothing, and the
    database is what it was: no meal row is added. *)
Theorem create_by_code_school_not_found
        db edu_office_code standard_school_code meal :
  (forall s, In s (school_infos db) ->
             ~ (SchoolInfoSchema.edu_office_code s = edu_office_code
                /\ SchoolInfoSchema.standard_school_code s
                   = standard_school_code)) ->
  create_by_code edu_office_code standard_school_code meal db
  = (Returned (inl SCHOOL_INFO_NOT_FOUND), db).
Proof.
  intros H.
  unfold create_by_code, with_session_begin, bind, session_execute, lift.
  simpl. unfold select_school_info_id.
  rewrite (select_school_info_none db _ _ H). reflexivity.
Qed.

(** C6. When [meal_id] is an integer of the key range and no meal row has
    the primary key [meal_id], [get_by_id] returns [None]; it does not
    raise. *)
Theorem get_by_id_absent db meal_id :
  key_in_range meal_id ->
  ~ In meal_id (meal_ids db) ->
  get_by_id meal_id db = (Returned None, db).
Proof.
  intros _ H. rewrite get_by_id_eq. unfold select_meal_by_id.
  rewrite filter_none; [reflexivity|].
  intros m Hm. apply Z.eqb_neq. intros E. apply H.
  unfold meal_ids. rewrite <- E. now apply in_map.
Qed.

(** C8. The four read operations leave the database as it was, whatever
    their arguments and whether they return or raise. *)
Theorem reads_leave_database_unchanged
        db edu_office_code standard_school_code date meal_name meal_id :
  snd (get_by_code edu_office_code standard_school_code date db) = db
  /\ snd (get_by_id meal_id db) = db
  /\ snd (get_with_id_by_code edu_office_code standard_school_code date db)
     = db
  /\ snd (get_id_by_code subquery_many edu_office_code standard_school_code
                         date meal_name db) = db.
Proof.
  split; [|split; [|split]].
  - unfold get_by_code, bind. rewrite _get_schema_by_code_eq. reflexivity.
  - rewrite get_by_id_eq. reflexivity.
  - unfold get_with_id_by_code, bind. rewrite _get_schema_by_code_eq.
    reflexivity.
  - rewrite get_id_by_code_eq. reflexivity.
Qed.

(** *** Creation *)

(** Case split on the school-info rows carrying the code pair: none, one,
    several. *)
Ltac school_cases db edu_office_code standard_school_code :=
  destruct (select_school_info edu_office_code standard_school_code db)
    as [|school [|school' rest]].

(** [create_by_code], case by case on the school-info rows carrying the
    code pair. *)
Lemma create_by_code_eq db edu_office_code standard_school_code meal :
  create_by_code edu_office_code standard_school_code meal db
  = match select_school_info edu_office_code standard_school_code db with
    | [] => (Returned (inl SCHOOL_INFO_NOT_FOUND), db)
    | [school] =>
        (Returned (inr (Some (meal_id_seq db))),
         mkDB (school_infos db) (meals db ++ [created_row db school meal])
              (meal_id_seq db + 1))
    | _ :: _ :: _ => (Raised MultipleResultsFound, db)
    end.
Proof.
  unfold create_by_code, with_session_begin, bind, session_execute, lift.
  simpl. unfold select_school_info_id.
  school_cases db edu_office_code standard_school_code; reflexivity.
Qed.

Lemma sequence_key_is_fresh db :
  ids_below_seq db -> ~ In (meal_id_seq db) (meal_ids db).
Proof.
  unfold ids_below_seq. rewrite Forall_forall. intros H Hin.
  specialize (H _ Hin). lia.
Qed.

(** X15. The primary-key invariant of the meal table (no key twice, every
    key below the sequence) survives every call of [create_by_code]. *)
Lemma create_by_code_preserves_wf
      db edu_office_code standard_school_code meal :
  wf_db db ->
  wf_db (snd (create_by_code edu_office_code standard_school_code meal db)).
Proof.
  intros [Hnd Hlt]. rewrite create_by_code_eq.
  school_cases db edu_office_code standard_school_code; simpl;
    try (split; assumption).
  unfold wf_db, ids_below_seq, meal_ids in *. simpl.
  rewrite map_app. simpl. split.
  - apply NoDup_app.
    + assumption.
    + constructor; [intros []|constructor].
    + intros i Hi [<-|[]]. rewrite Forall_forall in Hlt.
      specialize (Hlt _ Hi). lia.
  - apply Forall_app. split.
    + eapply Forall_impl; [|exact Hlt]. simpl. intros; lia.
    + constructor; [lia|constructor].
Qed.

(** C2. In a state that respects the key sequence of the meal table, when
    exactly one school-info row carries the code pair, [create_by_code]
    returns an integer id and the committed database is the old one with one
    meal row appended: the school-info rows and the earlier meal rows are
    untouched, the new row is built from the meal and the school and has the
    returned id, which the sequence has just handed out and which no earlier
    row carries. *)
Theorem create_by_code_persists_one_row
        db edu_office_code standard_school_code meal school :
  ids_below_seq db ->
  select_school_info edu_office_code standard_school_code db = [school] ->
  exists new_id new_row,
    create_by_code edu_office_code standard_school_code meal db
    = (Returned (inr (Some new_id)),
       mkDB (school_infos db) (meals db ++ [new_row]) (meal_id_seq db + 1))
    /\ new_row = created_row db school meal
    /\ MealSchema.id new_row = new_id
    /\ MealSchema.school_info_id new_row = SchoolInfoSchema.id school
    /\ new_id = meal_id_seq db
    /\ ~ In new_id (meal_ids db).
Proof.
  intros Hseq H. exists (meal_id_seq db), (created_row db school meal).
  rewrite create_by_code_eq, H.
  repeat (split; [reflexivity|]). now apply sequence_key_is_fresh.
Qed.

(** C3. Round trip: when [create_by_code] returns an integer id, [get_by_id]
    on that id, run on the database it left, returns an entity with the
    [name], [dish_name], [calorie] and [date] of the input meal: the id
    selects one row, that row has the four attributes of the meal, and the
    entity is the conversion of that row.  The state is assumed to respect
    the key sequence of the meal table. *)
Theorem create_by_code_then_get_by_id
        db edu_office_code standard_school_code meal new_id db' :
  ids_below_seq db ->
  create_by_code edu_office_code standard_school_code meal db
  = (Returned (inr (Some new_id)), db') ->
  exists stored entity,
    select_meal_by_id new_id db' = [stored]
    /\ MealSchema.name stored = Meal.name meal
    /\ MealSchema.dish_name stored = Meal.dish_name meal
    /\ MealSchema.calorie stored = Meal.calorie meal
    /\ MealSchema.date stored = Meal.date meal
    /\ entity = MealSchema.to_entity stored
    /\ get_by_id new_id db' = (Returned (Some entity), db')
    /\ Meal.name entity = Meal.name meal
    /\ Meal.dish_name entity = Meal.dish_name meal
    /\ Meal.calorie entity = Meal.calorie meal
    /\ Meal.date entity = Meal.date meal.
Proof.
  intros Hseq H. rewrite create_by_code_eq in H.
  school_cases db edu_office_code standard_school_code; try discriminate.
  injection H as <- <-.
  assert (Hsel : select_meal_by_id
                   (meal_id_seq db)
                   (mkDB (school_infos db)
                         (meals db ++ [created_row db school meal])
                         (meal_id_seq db + 1))
                 = [created_row db school meal]).
  { unfold select_meal_by_id. simpl. rewrite filter_app, filter_none.
    - simpl. rewrite Z.eqb_refl. reflexivity.
    - intros m Hm. apply Z.eqb_neq. intros E.
      apply (sequence_key_is_fresh db Hseq). rewrite <- E.
      unfold meal_ids. now apply in_map. }
  exists (created_row db school meal),
         (MealSchema.to_entity (created_row db school meal)).
  split; [exact Hsel|].
  do 5 (split; [reflexivity|]).
  split; [|repeat split].
  rewrite get_by_id_eq, Hsel. reflexivity.
Qed.

(** C7. The row stored by a successful [create_by_code] has no comment,
    whatever comments the input meal carries. *)
Theorem create_by_code_row_has_no_comment
        db edu_office_code standard_school_code meal new_id db' :
  create_by_code edu_office_code standard_school_code meal db
  = (Returned (inr new_id), db') ->
  exists new_row,
    meals db' = meals db ++ [new_row]
    /\ new_id = Some (MealSchema.id new_row)
    /\ MealSchema.comments new_row = [].
Proof.
  intros H. rewrite create_by_code_eq in H.
  school_cases db edu_office_code standard_school_code; try discriminate.
  injection H as <- <-.
  exists (created_row db school meal). repeat split.
Qed.

(** *** Lookup by code *)

Lemma flat_map_none {A B : Type} (f : A -> list B) (l : list A) :
  (forall x, In x l -> f x = []) -> flat_map f l = [].
Proof.
  induction l as [|x l IH]; intros H; simpl; [reflexivity|].
  rewrite (H x (or_introl eq_refl)). apply IH. intros y Hy. apply H. now right.
Qed.

Lemma map_flat_map {A B C : Type} (g : B -> C) (f : A -> list B) (l : list A) :
  map g (flat_map f l) = flat_map (fun x => map g (f x)) l.
Proof.
  induction l as [|x l IH]; simpl; [reflexivity|].
  rewrite map_app, IH. reflexivity.
Qed.

Lemma in_select_school_info db edu_office_code standard_school_code s :
  In s (select_school_info edu_office_code standard_school_code db)
  <-> In s (school_infos db)
      /\ SchoolInfoSchema.edu_office_code s = edu_office_code
      /\ SchoolInfoSchema.standard_school_code s = standard_school_code.
Proof.
  unfold select_school_info. rewrite filter_In, code_matches_iff. reflexivity.
Qed.

Lemma in_meals_and_date db school date m :
  In m (meals_and_date school date db)
  <-> In m (meals db)
      /\ MealSchema.school_info_id m = SchoolInfoSchema.id school
      /\ MealSchema.date m = date.
Proof.
  unfold meals_and_date.
  rewrite filter_In, andb_true_iff, Z.eqb_eq, date_eqb_eq. reflexivity.
Qed.

Lemma get_by_code_eq db edu_office_code standard_school_code date :
  get_by_code edu_office_code standard_school_code date db
  = (Returned
       (flat_map (fun school =>
                    map MealSchema.to_entity (meals_and_date school date db))
                 (select_school_info edu_office_code standard_school_code db)),
     db).
Proof.
  unfold get_by_code, bind. rewrite _get_schema_by_code_eq.
  unfold ret. rewrite map_flat_map. reflexivity.
Qed.

(** X16. The entities [get_by_code] returns are exactly those of the meal
    rows on the date that point to a school-info row carrying the code
    pair. *)
Lemma in_get_by_code db edu_office_code standard_school_code date entity :
  (exists entities,
      fst (get_by_code edu_office_code standard_school_code date db)
      = Returned entities /\ In entity entities)
  <-> exists s m,
      In s (school_infos db)
      /\ SchoolInfoSchema.edu_office_code s = edu_office_code
      /\ SchoolInfoSchema.standard_school_code s = standard_school_code
      /\ In m (meals db)
      /\ MealSchema.school_info_id m = SchoolInfoSchema.id s
      /\ MealSchema.date m = date
      /\ entity = MealSchema.to_entity m.
Proof.
  rewrite get_by_code_eq. simpl. split.
  - intros (entities & E & Hin). injection E as <-.
    apply in_flat_map in Hin. destruct Hin as (s & Hs & Hin).
    apply in_map_iff in Hin. destruct Hin as (m & <- & Hm).
    apply in_select_school_info in Hs. apply in_meals_and_date in Hm.
    exists s, m. intuition.
  - intros (s & m & Hs & He & Hc & Hm & Hk & Hd & ->).
    eexists. split; [reflexivity|].
    apply in_flat_map. exists s. split.
    + apply in_select_school_info. auto.
    + apply in_map. apply in_meals_and_date. auto.
Qed.

(** C5. When no meal row of a school-info row that carries the code pair has
    the date, [get_by_code] returns the empty list: it does not raise and
    there is no [None] among its results.  That a row carries the pair at all
    is not needed. *)
Theorem get_by_code_no_meal_on_date
        db edu_office_code standard_school_code date :
  (forall s m,
      In s (school_infos db) ->
      SchoolInfoSchema.edu_office_code s = edu_office_code ->
      SchoolInfoSchema.standard_school_code s = standard_school_code ->
      In m (meals db) ->
      MealSchema.school_info_id m = SchoolInfoSchema.id s ->
      MealSchema.date m <> date) ->
  get_by_code edu_office_code standard_school_code date db
  = (Returned [], db).
Proof.
  intros H. rewrite get_by_code_eq. rewrite flat_map_none; [reflexivity|].
  intros s Hs. apply in_select_school_info in Hs. destruct Hs as (Hs & He & Hc).
  destruct (meals_and_date s date db) as [|m l] eqn:E; [reflexivity|].
  assert (Hm : In m (meals_and_date s date db)) by (rewrite E; now left).
  apply in_meals_and_date in Hm. destruct Hm as (Hm & Hk & Hd).
  elim (H s m Hs He Hc Hm Hk Hd).
Qed.

(** C10. When several school-info rows carry the code pair,
    [create_by_code] raises [MultipleResultsFound] and the database is what
    it was, while [get_by_code] returns, school after school, the meals of
    every one of these rows on the date. *)
Theorem several_school_infos_for_one_code
        db edu_office_code standard_school_code meal date :
  (2 <= List.length
          (select_school_info edu_office_code standard_school_code db))%nat ->
  create_by_code edu_office_code standard_school_code meal db
  = (Raised MultipleResultsFound, db)
  /\ get_by_code edu_office_code standard_school_code date db
     = (Returned
          (flat_map (fun school =>
                       map MealSchema.to_entity
                           (filter (fun m =>
                                      (MealSchema.school_info_id m
                                       =? SchoolInfoSchema.id school)
                                      && Date.eqb (MealSchema.date m) date)
                                   (meals db)))
                    (filter (code_matches edu_office_code standard_school_code)
                            (school_infos db))),
        db).
Proof.
  intros H. split.
  - rewrite create_by_code_eq.
    destruct (select_school_info edu_office_code standard_school_code db)
      as [|school [|school' rest]]; simpl in H; try lia. reflexivity.
  - apply get_by_code_eq.
Qed.

(** *** Lookup of an id *)

Lemma filter_map_swap {A B : Type} (p : B -> bool) (g : A -> B) (l : list A) :
  filter p (map g l) = map g (filter (fun x => p (g x)) l).
Proof.
  induction l as [|x l IH]; simpl; [reflexivity|].
  destruct (p (g x)); simpl; rewrite IH; reflexivity.
Qed.

Lemma filter_filter {A : Type} (p q : A -> bool) (l : list A) :
  filter p (filter q l) = filter (fun x => q x && p x) l.
Proof.
  induction l as [|x l IH]; simpl; [reflexivity|].
  destruct (q x); simpl; [destruct (p x)|]; rewrite IH; reflexivity.
Qed.

Lemma existsb_filter {A : Type} (f g : A -> bool) (l : list A) :
  existsb (fun x => f x && g x) l = existsb g (filter f l).
Proof.
  induction l as [|x l IH]; simpl; [reflexivity|].
  destruct (f x); simpl; rewrite IH; reflexivity.
Qed.

(** The school of the scalar subquery when at most one row carries the
    pair: that row's id, or NULL. *)
Lemma scalar_subquery_at_most_one db edu_office_code standard_school_code :
  (List.length (select_school_info edu_office_code standard_school_code db)
   <= 1)%nat ->
  scalar_subquery subquery_many
                  (select_school_info_id edu_office_code standard_school_code
                                         db)
  = Returned (option_map SchoolInfoSchema.id
                (hd_error (select_school_info edu_office_code
                                              standard_school_code db))).
Proof.
  unfold select_school_info_id.
  school_cases db edu_office_code standard_school_code; simpl; intros H;
    try lia; reflexivity.
Qed.

(** With at most one school-info row for the pair, the statement of
    [get_id_by_code] selects the ids of the rows of the join. *)
Lemma select_meal_id_at_most_one
      db edu_office_code standard_school_code date meal_name :
  (List.length (select_school_info edu_office_code standard_school_code db)
   <= 1)%nat ->
  select_meal_id
    (fun db => scalar_subquery subquery_many
                 (select_school_info_id edu_office_code standard_school_code
                                        db))
    date meal_name db
  = Returned (map MealSchema.id
                  (meals_matching edu_office_code standard_school_code date
                                  meal_name db)).
Proof.
  intros H. unfold select_meal_id.
  rewrite (scalar_subquery_at_most_one _ _ _ H).
  do 2 f_equal. unfold meals_matching. apply filter_ext. intros m.
  do 2 f_equal. unfold belongs_to_code. rewrite existsb_filter.
  fold (select_school_info edu_office_code standard_school_code db).
  school_cases db edu_office_code standard_school_code; simpl in *.
  - reflexivity.
  - rewrite orb_false_r. reflexivity.
  - lia.
Qed.

(** With at most one school-info row for the pair, the entries of
    [get_with_id_by_code] that carry [meal_name] are the rows of the join. *)
Lemma get_with_id_by_code_named
      db edu_office_code standard_school_code date meal_name :
  (List.length (select_school_info edu_office_code standard_school_code db)
   <= 1)%nat ->
  exists entries,
    fst (get_with_id_by_code edu_office_code standard_school_code date db)
    = Returned entries
    /\ filter (fun entry => String.eqb (Meal.name (snd entry)) meal_name)
              entries
       = map (fun schema => (MealSchema.id schema,
                             MealSchema.to_entity schema))
             (meals_matching edu_office_code standard_school_code date
                             meal_name db).
Proof.
  intros H. unfold get_with_id_by_code, bind.
  rewrite _get_schema_by_code_eq. simpl. eexists. split; [reflexivity|].
  rewrite filter_map_swap. simpl. f_equal.
  unfold meals_matching, belongs_to_code.
  destruct (select_school_info edu_office_code standard_school_code db)
    as [|school [|school' rest]] eqn:E; simpl in *; try lia.
  - symmetry. apply filter_none. intros m _.
    rewrite existsb_filter.
    fold (select_school_info edu_office_code standard_school_code db).
    rewrite E. reflexivity.
  - rewrite app_nil_r. unfold meals_and_date. rewrite filter_filter.
    apply filter_ext. intros m. rewrite existsb_filter.
    fold (select_school_info edu_office_code standard_school_code db).
    rewrite E. simpl. rewrite orb_false_r. reflexivity.
Qed.

(** C4, amended. When at most one school-info row carries the code pair and
    exactly one entry of [get_with_id_by_code] has a meal named [meal_name],
    [get_id_by_code] returns the id of that entry. *)
Theorem get_id_by_code_agrees_when_unique
        db edu_office_code standard_school_code date meal_name
        entries i entity :
  (List.length (select_school_info edu_office_code standard_school_code db)
   <= 1)%nat ->
  fst (get_with_id_by_code edu_office_code standard_school_code date db)
  = Returned entries ->
  filter (fun entry => String.eqb (Meal.name (snd entry)) meal_name) entries
  = [(i, entity)] ->
  fst (get_id_by_code subquery_many edu_office_code standard_school_code date
                      meal_name db)
  = Returned (Some i).
Proof.
  intros H Hentries Hone.
  destruct (get_with_id_by_code_named db edu_office_code standard_school_code
                                      date meal_name H)
    as (entries' & E & Hnamed).
  rewrite Hentries in E. injection E as <-. rewrite Hone in Hnamed.
  rewrite get_id_by_code_eq, (select_meal_id_at_most_one _ _ _ _ _ H). simpl.
  destruct (meals_matching edu_office_code standard_school_code date
                           meal_name db) as [|m [|m' l]];
    try discriminate.
  injection Hnamed as -> _. reflexivity.
Qed.

(** C9, amended. When at most one school-info row carries the code pair,
    [get_id_by_code] raises [MultipleResultsFound] if several meal rows match
    the school, the date and the name, returns [None] exactly when none
    matches, and returns an id exactly when one matches, that row's id. *)
Theorem get_id_by_code_by_multiplicity
        db edu_office_code standard_school_code date meal_name :
  (List.length (select_school_info edu_office_code standard_school_code db)
   <= 1)%nat ->
  id_lookup_by_multiplicity subquery_many db edu_office_code
                            standard_school_code date meal_name.
Proof.
  intros H. unfold id_lookup_by_multiplicity.
  rewrite get_id_by_code_eq, (select_meal_id_at_most_one _ _ _ _ _ H). simpl.
  destruct (meals_matching edu_office_code standard_school_code date
                           meal_name db) as [|m [|m' l]]; simpl.
  - split; [lia|]. split; [tauto|].
    intros i. split; [discriminate|]. intros (row & E & _). discriminate.
  - split; [lia|]. split; [split; discriminate|].
    intros i. split.
    + intros E. injection E as <-. exists m. auto.
    + intros (row & E & <-). injection E as <-. reflexivity.
  - split; [reflexivity|]. split; [split; discriminate|].
    intros i. split; [discriminate|]. intros (row & E & _). discriminate.
Qed.

End Facts.

(* ================================================================= *)
(** ** The properties on the sample states *)

(** Both sample states with meals are reached from the empty meal table by
    calls of [create_by_code]. *)
Lemma sample_states_are_reachable :
  snd (create_by_code "B10" "7010057" Sample.lunch Sample.db_school)
  = Sample.db_lunch
  /\ snd (create_by_code "B10" "7010057" Sample.lunch Sample.db_lunch)
     = Sample.db_twice.
Proof. split; reflexivity. Qed.

(** C1 on the sample: no school carries the office code C10. *)
Lemma create_by_code_school_not_found_witness :
  (forall s, In s (school_infos Sample.db_school) ->
             ~ (SchoolInfoSchema.edu_office_code s = "C10"%string
                /\ SchoolInfoSchema.standard_school_code s = "7010057"%string))
  /\ create_by_code "C10" "7010057" Sample.lunch Sample.db_school
     = (Returned (inl SCHOOL_INFO_NOT_FOUND), Sample.db_school).
Proof.
  assert (H : forall s, In s (school_infos Sample.db_school) ->
                ~ (SchoolInfoSchema.edu_office_code s = "C10"%string
                   /\ SchoolInfoSchema.standard_school_code s
                      = "7010057"%string)).
  { intros s [<-|[]] [E _]. discriminate E. }
  split; [exact H|].
  exact (create_by_code_school_not_found Sample.db_school "C10" "7010057"
                                         Sample.lunch H).
Defined.

(** C2 on the sample: a second lunch for the school that has one. *)
Lemma create_by_code_persists_one_row_witness :
  ids_below_seq Sample.db_lunch
  /\ select_school_info "B10" "7010057" Sample.db_lunch = [Sample.school]
  /\ exists new_id new_row,
      create_by_code "B10" "7010057" Sample.lunch Sample.db_lunch
      = (Returned (inr (Some new_id)),
         mkDB [Sample.school] ([Sample.lunch_row 1 1] ++ [new_row]) (2 + 1))
      /\ new_row = Sample.lunch_row 2 1
      /\ MealSchema.id new_row = new_id
      /\ MealSchema.school_info_id new_row = 1
      /\ new_id = 2
      /\ ~ In new_id (meal_ids Sample.db_lunch).
Proof.
  assert (H : ids_below_seq Sample.db_lunch).
  { constructor; [reflexivity|constructor]. }
  split; [exact H|]. split; [reflexivity|].
  exact (create_by_code_persists_one_row Sample.db_lunch "B10" "7010057"
                                         Sample.lunch Sample.school H
                                         eq_refl).
Defined.

(** C3 on the sample: the lunch is created, then read back by its id. *)
Lemma create_by_code_then_get_by_id_witness :
  ids_below_seq Sample.db_school
  /\ create_by_code "B10" "7010057" Sample.lunch Sample.db_school
     = (Returned (inr (Some 1)), Sample.db_lunch)
  /\ exists stored entity,
      select_meal_by_id 1 Sample.db_lunch = [stored]
      /\ MealSchema.name stored = Meal.name Sample.lunch
      /\ MealSchema.dish_name stored = Meal.dish_name Sample.lunch
      /\ MealSchema.calorie stored = Meal.calorie Sample.lunch
      /\ MealSchema.date stored = Meal.date Sample.lunch
      /\ entity = MealSchema.to_entity stored
      /\ get_by_id 1 Sample.db_lunch = (Returned (Some entity), Sample.db_lunch)
      /\ Meal.name entity = Meal.name Sample.lunch
      /\ Meal.dish_name entity = Meal.dish_name Sample.lunch
      /\ Meal.calorie entity = Meal.calorie Sample.lunch
      /\ Meal.date entity = Meal.date Sample.lunch.
Proof.
  assert (H : ids_below_seq Sample.db_school) by constructor.
  split; [exact H|]. split; [reflexivity|].
  exact (create_by_code_then_get_by_id Sample.db_school "B10" "7010057"
                                       Sample.lunch 1 Sample.db_lunch H
                                       eq_refl).
Defined.

(** C4, as stated, fails where the same lunch is stored twice:
    [get_with_id_by_code] lists it under the ids 1 and 2, and
    [get_id_by_code] raises.  It also fails where two school-info rows share
    the code pair and the lunch belongs to the second: the lunch is listed
    under its id, and [get_id_by_code] raises when the subquery is an error
    and returns [None] when the subquery keeps the first school. *)
Lemma id_lookups_disagree :
  ~ id_lookups_agree Sample.strict Sample.db_twice "B10" "7010057"
                     Sample.monday "중식"
  /\ ~ id_lookups_agree Sample.strict Sample.db_twins "B10" "7010057"
                        Sample.monday "중식"
  /\ ~ id_lookups_agree Sample.first_row Sample.db_twins "B10" "7010057"
                        Sample.monday "중식".
Proof.
  split; [|split]; intros H.
  - assert (E := H [(1, MealSchema.to_entity (Sample.lunch_row 1 1));
                    (2, MealSchema.to_entity (Sample.lunch_row 2 1))]
                   2 (MealSchema.to_entity (Sample.lunch_row 2 1))
                   eq_refl (or_intror (or_introl eq_refl)) eq_refl).
    vm_compute in E. discriminate E.
  - assert (E := H [(1, MealSchema.to_entity (Sample.lunch_row 1 2))]
                   1 (MealSchema.to_entity (Sample.lunch_row 1 2))
                   eq_refl (or_introl eq_refl) eq_refl).
    vm_compute in E. discriminate E.
  - assert (E := H [(1, MealSchema.to_entity (Sample.lunch_row 1 2))]
                   1 (MealSchema.to_entity (Sample.lunch_row 1 2))
                   eq_refl (or_introl eq_refl) eq_refl).
    vm_compute in E. discriminate E.
Qed.

(** C4, amended, on the sample: one school, the lunch stored once. *)
Lemma get_id_by_code_agrees_when_unique_witness :
  (List.length (select_school_info "B10" "7010057" Sample.db_lunch) <= 1)%nat
  /\ fst (get_with_id_by_code "B10" "7010057" Sample.monday Sample.db_lunch)
     = Returned [(1, MealSchema.to_entity (Sample.lunch_row 1 1))]
  /\ filter (fun entry => String.eqb (Meal.name (snd entry)) "중식")
            [(1, MealSchema.to_entity (Sample.lunch_row 1 1))]
     = [(1, MealSchema.to_entity (Sample.lunch_row 1 1))]
  /\ fst (get_id_by_code Sample.strict "B10" "7010057" Sample.monday "중식"
                         Sample.db_lunch)
     = Returned (Some 1).
Proof.
  split; [apply le_n|]. split; [reflexivity|]. split; [reflexivity|].
  exact (get_id_by_code_agrees_when_unique
           Sample.strict Sample.db_lunch "B10" "7010057" Sample.monday "중식"
           [(1, MealSchema.to_entity (Sample.lunch_row 1 1))] 1
           (MealSchema.to_entity (Sample.lunch_row 1 1))
           (le_n 1) eq_refl eq_refl).
Defined.

(** C5 on the sample: the school has a lunch on Monday, none on Tuesday. *)
Lemma get_by_code_no_meal_on_date_witness :
  (forall s m,
      In s (school_infos Sample.db_lunch) ->
      SchoolInfoSchema.edu_office_code s = "B10"%string ->
      SchoolInfoSchema.standard_school_code s = "7010057"%string ->
      In m (meals Sample.db_lunch) ->
      MealSchema.school_info_id m = SchoolInfoSchema.id s ->
      MealSchema.date m <> Sample.tuesday)
  /\ get_by_code "B10" "7010057" Sample.tuesday Sample.db_lunch
     = (Returned [], Sample.db_lunch).
Proof.
  assert (H : forall s m,
             In s (school_infos Sample.db_lunch) ->
             SchoolInfoSchema.edu_office_code s = "B10"%string ->
             SchoolInfoSchema.standard_school_code s = "7010057"%string ->
             In m (meals Sample.db_lunch) ->
             MealSchema.school_info_id m = SchoolInfoSchema.id s ->
             MealSchema.date m <> Sample.tuesday).
  { intros s m _ _ _ [<-|[]] _ E. discriminate E. }
  split; [exact H|].
  exact (get_by_code_no_meal_on_date Sample.db_lunch "B10" "7010057"
                                     Sample.tuesday H).
Defined.

(** C6 on the sample: no meal row has the id 7. *)
Lemma get_by_id_absent_witness :
  key_in_range 7
  /\ ~ In 7 (meal_ids Sample.db_lunch)
  /\ get_by_id 7 Sample.db_lunch = (Returned None, Sample.db_lunch).
Proof.
  assert (R : key_in_range 7).
  { split; [discriminate|reflexivity]. }
  assert (H : ~ In 7 (meal_ids Sample.db_lunch)).
  { intros [E|[]]. discriminate E. }
  split; [exact R|]. split; [exact H|].
  exact (get_by_id_absent Sample.db_lunch 7 R H).
Defined.

(** C7 on the sample: the input lunch carries a comment, the row none. *)
Lemma create_by_code_row_has_no_comment_witness :
  create_by_code "B10" "7010057" Sample.lunch Sample.db_school
  = (Returned (inr (Some 1)), Sample.db_lunch)
  /\ Meal.comments Sample.lunch <> []
  /\ exists new_row,
      meals Sample.db_lunch = meals Sample.db_school ++ [new_row]
      /\ Some 1 = Some (MealSchema.id new_row)
      /\ MealSchema.comments new_row = [].
Proof.
  split; [reflexivity|]. split; [discriminate|].
  exact (create_by_code_row_has_no_comment Sample.db_school "B10" "7010057"
                                           Sample.lunch (Some 1)
                                           Sample.db_lunch eq_refl).
Defined.

(** C9, as stated, fails where two school-info rows share the code pair and
    the one lunch belongs to the second: exactly one meal row matches, and
    [get_id_by_code] raises when the subquery is an error and returns [None]
    when the subquery keeps the first school. *)
Lemma id_lookup_not_by_multiplicity_on_twins :
  ~ id_lookup_by_multiplicity Sample.strict Sample.db_twins "B10" "7010057"
                              Sample.monday "중식"
  /\ ~ id_lookup_by_multiplicity Sample.first_row Sample.db_twins "B10"
                                 "7010057" Sample.monday "중식".
Proof.
  split; intros (_ & _ & H); destruct (H 1) as [_ E];
    (assert (F := E (ex_intro _ (Sample.lunch_row 1 2)
                              (conj eq_refl eq_refl)));
     vm_compute in F; discriminate F).
Qed.

(** C9, amended, on the sample: one school, the lunch stored twice. *)
Lemma get_id_by_code_by_multiplicity_witness :
  (List.length (select_school_info "B10" "7010057" Sample.db_twice) <= 1)%nat
  /\ id_lookup_by_multiplicity Sample.strict Sample.db_twice "B10" "7010057"
                               Sample.monday "중식".
Proof.
  split; [apply le_n|].
  exact (get_id_by_code_by_multiplicity Sample.strict Sample.db_twice "B10"
                                        "7010057" Sample.monday "중식"
                                        (le_n 1)).
Defined.

(** C10 on the sample: two school-info rows share the code pair. *)
Lemma several_school_infos_for_one_code_witness :
  (2 <= List.length (select_school_info "B10" "7010057" Sample.db_twins))%nat
  /\ create_by_code "B10" "7010057" Sample.lunch Sample.db_twins
     = (Raised MultipleResultsFound, Sample.db_twins)
  /\ get_by_code "B10" "7010057" Sample.monday Sample.db_twins
     = (Returned [MealSchema.to_entity (Sample.lunch_row 1 2)],
        Sample.db_twins).
Proof.
  split; [apply le_n|].
  exact (several_school_infos_for_one_code Sample.db_twins "B10" "7010057"
                                           Sample.lunch Sample.monday
                                           (le_n 2)).
Defined.


(* ================================================================= *)
(** ** How the operations compose *)

Section Composition.
Context {Calorie Comment : Type}.
Variable subquery_many : list Z -> outcome (option Z).

Implicit Types (db : DB Calorie Comment) (meal : Meal.t Calorie Comment).
Implicit Types (row : MealSchema.t Calorie Comment).
Implicit Types (edu_office_code standard_school_code meal_name : string).
Implicit Types (date : Date.t).

(** *** Shared steps *)

(** A successful [create_by_code], spelled out. *)
Lemma create_by_code_success
      db edu_office_code standard_school_code meal new_id db' :
  create_by_code edu_office_code standard_school_code meal db
  = (Returned (inr new_id), db') ->
  exists school,
    select_school_info edu_office_code standard_school_code db = [school]
    /\ new_id = Some (meal_id_seq db)
    /\ db' = mkDB (school_infos db)
                  (meals db ++ [created_row db school meal])
                  (meal_id_seq db + 1).
Proof.
  intros H. rewrite create_by_code_eq in H.
  destruct (select_school_info edu_office_code standard_school_code db)
    as [|school [|school' rest]]; try discriminate.
  injection H as <- <-. exists school. auto.
Qed.

(** Under a unique key, the key of a stored row selects that row alone. *)
Lemma key_selects_row (l : list (MealSchema.t Calorie Comment)) row :
  NoDup (map MealSchema.id l) ->
  In row l ->
  filter (fun m => MealSchema.id m =? MealSchema.id row) l = [row].
Proof.
  induction l as [|a l IH]; intros Hnd Hin; [destruct Hin|].
  simpl in Hnd. apply NoDup_cons_iff in Hnd. destruct Hnd as [Ha Hnd].
  simpl. destruct Hin as [->|Hin].
  - rewrite Z.eqb_refl. f_equal. apply filter_none. intros y Hy.
    apply Z.eqb_neq. intros E. apply Ha. rewrite <- E. now apply in_map.
  - replace (MealSchema.id a =? MealSchema.id row) with false.
    + now apply IH.
    + symmetry. apply Z.eqb_neq. intros E. apply Ha. rewrite E.
      now apply in_map.
Qed.

Lemma scalar_one_or_none_many {A : Type} (rows : list A) :
  (2 <= List.length rows)%nat ->
  scalar_one_or_none rows = Raised MultipleResultsFound.
Proof.
  destruct rows as [|x [|y l]]; simpl; intros H; try lia. reflexivity.
Qed.

(** The rows behind the entries of [get_with_id_by_code]. *)
Lemma in_get_with_id_by_code
      db edu_office_code standard_school_code date entries i entity :
  fst (get_with_id_by_code edu_office_code standard_school_code date db)
  = Returned entries ->
  In (i, entity) entries ->
  exists s row,
    In s (select_school_info edu_office_code standard_school_code db)
    /\ In row (meals db)
    /\ MealSchema.school_info_id row = SchoolInfoSchema.id s
    /\ MealSchema.date row = date
    /\ MealSchema.id row = i
    /\ MealSchema.to_entity row = entity.
Proof.
  unfold get_with_id_by_code, bind. rewrite _get_schema_by_code_eq. simpl.
  intros E Hin. injection E as <-.
  apply in_map_iff in Hin. destruct Hin as (row & E & Hrow).
  injection E as <- <-.
  apply in_flat_map in Hrow. destruct Hrow as (s & Hs & Hrow).
  apply in_meals_and_date in Hrow. destruct Hrow as (Hm & Hk & Hd).
  exists s, row. repeat split; assumption.
Qed.

(** *** Listing and lookup by key *)

(** X1. [get_with_id_by_code] and [get_by_code] list the same meals in the
    same order: dropping the ids of the first gives the second.  Neither
    raises. *)
Theorem get_with_id_by_code_drops_to_get_by_code
        db edu_office_code standard_school_code date :
  exists entries,
    get_with_id_by_code edu_office_code standard_school_code date db
    = (Returned entries, db)
    /\ get_by_code edu_office_code standard_school_code date db
       = (Returned (map snd entries), db).
Proof.
  unfold get_with_id_by_code, get_by_code, bind.
  rewrite _get_schema_by_code_eq. simpl. unfold ret.
  eexists. split; [reflexivity|]. rewrite map_map. reflexivity.
Qed.

(** X2. With a unique primary key on the meal table, every entry listed by
    [get_with_id_by_code] can be read back: [get_by_id] on the entry's id
    returns the entry's meal. *)
Theorem get_with_id_by_code_then_get_by_id
        db edu_office_code standard_school_code date entries i entity :
  NoDup (meal_ids db) ->
  fst (get_with_id_by_code edu_office_code standard_school_code date db)
  = Returned entries ->
  In (i, entity) entries ->
  get_by_id i db = (Returned (Some entity), db).
Proof.
  intros Hnd E Hin.
  destruct (in_get_with_id_by_code _ _ _ _ _ _ _ E Hin)
    as (s & row & _ & Hrow & _ & _ & <- & <-).
  rewrite get_by_id_eq. unfold select_meal_by_id.
  rewrite (key_selects_row _ _ Hnd Hrow). reflexivity.
Qed.

(** X3. With a unique primary key on the meal table, [get_by_id] on the key
    of a stored row returns the entity of that row; it does not raise. *)
Theorem get_by_id_present db row :
  NoDup (meal_ids db) ->
  In row (meals db) ->
  get_by_id (MealSchema.id row) db
  = (Returned (Some (MealSchema.to_entity row)), db).
Proof.
  intros Hnd Hrow. rewrite get_by_id_eq. unfold select_meal_by_id.
  rewrite (key_selects_row _ _ Hnd Hrow). reflexivity.
Qed.

(** *** Reading after a creation *)

(** The statements on a database that gained one meal row. *)
Lemma select_school_info_snoc
      db edu_office_code standard_school_code row seq' :
  select_school_info edu_office_code standard_school_code
                     (mkDB (school_infos db) (meals db ++ [row]) seq')
  = select_school_info edu_office_code standard_school_code db.
Proof. reflexivity. Qed.

Lemma meals_and_date_snoc db school date row seq' :
  meals_and_date school date
                 (mkDB (school_infos db) (meals db ++ [row]) seq')
  = meals_and_date school date db
    ++ (if (MealSchema.school_info_id row =? SchoolInfoSchema.id school)
           && Date.eqb (MealSchema.date row) date
        then [row] else []).
Proof.
  unfold meals_and_date. simpl. rewrite filter_app. simpl.
  destruct ((MealSchema.school_info_id row =? SchoolInfoSchema.id school)
            && Date.eqb (MealSchema.date row) date); reflexivity.
Qed.

Lemma meals_matching_snoc
      db edu_office_code standard_school_code date meal_name row seq' :
  meals_matching edu_office_code standard_school_code date meal_name
                 (mkDB (school_infos db) (meals db ++ [row]) seq')
  = meals_matching edu_office_code standard_school_code date meal_name db
    ++ (if belongs_to_code edu_office_code standard_school_code db row
           && Date.eqb (MealSchema.date row) date
           && String.eqb (MealSchema.name row) meal_name
        then [row] else []).
Proof.
  unfold meals_matching, belongs_to_code. simpl. rewrite filter_app. simpl.
  destruct (existsb _ _ && _ && _); reflexivity.
Qed.

(** The row created for the one school of a code pair belongs to it, on the
    date and under the name of the meal. *)
Lemma created_row_matches
      db0 db edu_office_code standard_school_code meal school :
  select_school_info edu_office_code standard_school_code db = [school] ->
  belongs_to_code edu_office_code standard_school_code db
                  (created_row db0 school meal)
  && Date.eqb (MealSchema.date (created_row db0 school meal)) (Meal.date meal)
  && String.eqb (MealSchema.name (created_row db0 school meal))
                (Meal.name meal)
  = true.
Proof.
  intros H. unfold belongs_to_code. rewrite existsb_filter.
  fold (select_school_info edu_office_code standard_school_code db).
  rewrite H. simpl. rewrite Z.eqb_refl, String.eqb_refl. simpl.
  rewrite andb_true_r. apply date_eqb_eq. reflexivity.
Qed.

(** X4. After a successful [create_by_code], [get_by_code] for the same
    code pair and the date of the meal returns what it returned before,
    followed by the new meal with an empty comment list. *)
Theorem create_by_code_then_get_by_code
        db edu_office_code standard_school_code meal new_id db' :
  create_by_code edu_office_code standard_school_code meal db
  = (Returned (inr new_id), db') ->
  exists before,
    get_by_code edu_office_code standard_school_code (Meal.date meal) db
    = (Returned before, db)
    /\ get_by_code edu_office_code standard_school_code (Meal.date meal) db'
       = (Returned (before
                    ++ [Meal.mk (Meal.name meal) (Meal.dish_name meal)
                                (Meal.calorie meal) (Meal.date meal) []]),
          db').
Proof.
  intros H. apply create_by_code_success in H.
  destruct H as (school & Hs & _ & ->).
  rewrite !get_by_code_eq, select_school_info_snoc, Hs. simpl.
  rewrite !app_nil_r. eexists. split; [reflexivity|].
  rewrite meals_and_date_snoc. simpl. rewrite Z.eqb_refl. simpl.
  replace (Date.eqb (Meal.date meal) (Meal.date meal)) with true
    by (symmetry; now apply date_eqb_eq).
  rewrite map_app. reflexivity.
Qed.

(** X5. A [create_by_code], whatever its outcome, leaves the result of
    [get_by_code] alone for every code pair on every date other than the
    date of the meal. *)
Theorem create_by_code_keeps_other_dates
        db edu_office_code standard_school_code meal
        edu_office_code' standard_school_code' date :
  date <> Meal.date meal ->
  fst (get_by_code edu_office_code' standard_school_code' date
                   (snd (create_by_code edu_office_code standard_school_code
                                        meal db)))
  = fst (get_by_code edu_office_code' standard_school_code' date db).
Proof.
  intros Hd. rewrite create_by_code_eq.
  destruct (select_school_info edu_office_code standard_school_code db)
    as [|school [|school' rest]]; try reflexivity.
  cbn [snd]. rewrite !get_by_code_eq, select_school_info_snoc. cbn [fst].
  f_equal. apply flat_map_ext. intros s.
  rewrite meals_and_date_snoc. simpl.
  replace (Date.eqb (Meal.date meal) date) with false.
  - rewrite andb_false_r, app_nil_r. reflexivity.
  - symmetry. destruct (Date.eqb (Meal.date meal) date) eqn:E; [|reflexivity].
    apply date_eqb_eq in E. congruence.
Qed.

(** X6. After a successful [create_by_code], [get_by_id] on any id other
    than the new one gives the result it gave before. *)
Theorem create_by_code_keeps_other_ids
        db edu_office_code standard_school_code meal new_id db' i :
  create_by_code edu_office_code standard_school_code meal db
  = (Returned (inr (Some new_id)), db') ->
  i <> new_id ->
  fst (get_by_id i db') = fst (get_by_id i db).
Proof.
  intros H Hi. apply create_by_code_success in H.
  destruct H as (school & _ & E & ->). injection E as ->.
  rewrite !get_by_id_eq. unfold select_meal_by_id. simpl.
  rewrite filter_app. simpl.
  replace (meal_id_seq db =? i) with false
    by (symmetry; apply Z.eqb_neq; congruence).
  rewrite app_nil_r. reflexivity.
Qed.

(** X7. When no meal row matched the school, the date and the name of the
    meal before, [get_id_by_code] for that slot returns, after a successful
    [create_by_code], the id that [create_by_code] returned. *)
Theorem create_by_code_then_get_id_by_code
        db edu_office_code standard_school_code meal new_id db' :
  create_by_code edu_office_code standard_school_code meal db
  = (Returned (inr new_id), db') ->
  meals_matching edu_office_code standard_school_code (Meal.date meal)
                 (Meal.name meal) db = [] ->
  get_id_by_code subquery_many edu_office_code standard_school_code
                 (Meal.date meal) (Meal.name meal) db'
  = (Returned new_id, db').
Proof.
  intros H Hnone. apply create_by_code_success in H.
  destruct H as (school & Hs & -> & ->).
  rewrite get_id_by_code_eq, select_meal_id_at_most_one.
  - rewrite meals_matching_snoc, Hnone,
      (created_row_matches db db _ _ meal school Hs).
    reflexivity.
  - rewrite select_school_info_snoc, Hs. apply le_n.
Qed.

(** X8. [create_by_code] does not look for an existing meal: in a state
    with unique meal keys below the key sequence, repeated after a success
    with the same arguments it succeeds again under another id, and
    [get_id_by_code] for the slot of the meal then raises
    [MultipleResultsFound]. *)
Theorem create_by_code_twice
        db edu_office_code standard_school_code meal id1 db1 :
  wf_db db ->
  create_by_code edu_office_code standard_school_code meal db
  = (Returned (inr id1), db1) ->
  exists id2 db2,
    create_by_code edu_office_code standard_school_code meal db1
    = (Returned (inr id2), db2)
    /\ id2 <> id1
    /\ get_id_by_code subquery_many edu_office_code standard_school_code
                      (Meal.date meal) (Meal.name meal) db2
       = (Raised MultipleResultsFound, db2).
Proof.
  intros _ H. apply create_by_code_success in H.
  destruct H as (school & Hs & -> & ->).
  set (db1 := mkDB (school_infos db)
                   (meals db ++ [created_row db school meal])
                   (meal_id_seq db + 1)).
  assert (Hs1 : select_school_info edu_office_code standard_school_code db1
                = [school]) by exact Hs.
  exists (Some (meal_id_seq db1)),
         (mkDB (school_infos db1)
               (meals db1 ++ [created_row db1 school meal])
               (meal_id_seq db1 + 1)).
  split; [rewrite create_by_code_eq, Hs1; reflexivity|].
  split; [simpl; intros E; injection E; lia|].
  rewrite get_id_by_code_eq, select_meal_id_at_most_one.
  - rewrite scalar_one_or_none_many; [reflexivity|].
    rewrite meals_matching_snoc,
      (created_row_matches db1 db1 _ _ meal school Hs1).
    unfold db1 at 1. rewrite meals_matching_snoc,
      (created_row_matches db db _ _ meal school Hs).
    rewrite length_map, !length_app. simpl. lia.
  - rewrite select_school_info_snoc, Hs1. apply le_n.
Qed.

(** *** What a creation does and does not do *)

(** X9. Whatever its arguments and outcome, [create_by_code] keeps the
    school-info table and every earlier meal row in place: the meal table
    afterwards is the old one followed by at most one row, and the key
    sequence does not go back. *)
Theorem create_by_code_only_appends
        db edu_office_code standard_school_code meal :
  let db' := snd (create_by_code edu_office_code standard_school_code meal
                                 db) in
  school_infos db' = school_infos db
  /\ (exists added,
        meals db' = meals db ++ added /\ (List.length added <= 1)%nat)
  /\ meal_id_seq db <= meal_id_seq db'.
Proof.
  rewrite create_by_code_eq.
  destruct (select_school_info edu_office_code standard_school_code db)
    as [|school [|school' rest]]; simpl.
  - split; [reflexivity|]. split; [|lia].
    exists []. rewrite app_nil_r. auto.
  - split; [reflexivity|]. split; [|lia]. eexists. split; [reflexivity|].
    simpl. lia.
  - split; [reflexivity|]. split; [|lia].
    exists []. rewrite app_nil_r. auto.
Qed.

(** X10. In a state that respects the key sequence of the meal table, the
    outcome of [create_by_code] is decided by the number of school-info rows
    carrying the code pair: the [SCHOOL_INFO_NOT_FOUND] value exactly for
    none, an integer id exactly for one, [MultipleResultsFound] exactly for
    several. *)
Theorem create_by_code_outcome
        db edu_office_code standard_school_code meal :
  ids_below_seq db ->
  let n := List.length
             (select_school_info edu_office_code standard_school_code db) in
  let result := fst (create_by_code edu_office_code standard_school_code
                                    meal db) in
  (result = Returned (inl SCHOOL_INFO_NOT_FOUND) <-> n = 0%nat)
  /\ ((exists i, result = Returned (inr (Some i))) <-> n = 1%nat)
  /\ (result = Raised MultipleResultsFound <-> (2 <= n)%nat).
Proof.
  intros _. rewrite create_by_code_eq.
  destruct (select_school_info edu_office_code standard_school_code db)
    as [|school [|school' rest]]; simpl.
  - repeat split; try discriminate; try lia; auto.
    intros (i & E). discriminate E.
  - repeat split; try discriminate; try lia; auto.
    intros _. eexists. reflexivity.
  - repeat split; try discriminate; try lia; auto.
    intros (i & E). discriminate E.
Qed.

(** *** Lookups by code *)

(** X11. For a code pair that no school-info row carries, the three lookups
    by code report absence and do not raise: [get_by_code] and
    [get_with_id_by_code] return the empty list and [get_id_by_code] returns
    [None] (the subquery is NULL, and nothing equals NULL). *)
Theorem lookups_for_unknown_school
        db edu_office_code standard_school_code date meal_name :
  (forall s, In s (school_infos db) ->
             ~ (SchoolInfoSchema.edu_office_code s = edu_office_code
                /\ SchoolInfoSchema.standard_school_code s
                   = standard_school_code)) ->
  get_by_code edu_office_code standard_school_code date db
  = (Returned [], db)
  /\ get_with_id_by_code edu_office_code standard_school_code date db
     = (Returned [], db)
  /\ get_id_by_code subquery_many edu_office_code standard_school_code date
                    meal_name db
     = (Returned None, db).
Proof.
  intros H. apply select_school_info_none in H. split; [|split].
  - rewrite get_by_code_eq, H. reflexivity.
  - unfold get_with_id_by_code, bind. rewrite _get_schema_by_code_eq, H.
    reflexivity.
  - rewrite get_id_by_code_eq. unfold select_meal_id, select_school_info_id.
    rewrite H. simpl. rewrite filter_none; [reflexivity|].
    intros m _. reflexivity.
Qed.

(** X12. An id returned by [get_id_by_code] is the key of a stored meal row
    with the requested date and name, whatever the database makes of the
    subquery. *)
Theorem get_id_by_code_sound
        db edu_office_code standard_school_code date meal_name i :
  fst (get_id_by_code subquery_many edu_office_code standard_school_code
                      date meal_name db)
  = Returned (Some i) ->
  exists row,
    In row (meals db)
    /\ MealSchema.id row = i
    /\ MealSchema.date row = date
    /\ MealSchema.name row = meal_name.
Proof.
  rewrite get_id_by_code_eq. unfold select_meal_id. simpl.
  destruct (scalar_subquery subquery_many _) as [sid|e]; [|discriminate].
  set (matching := filter _ (meals db)).
  destruct matching as [|row [|row' l]] eqn:E; simpl; try discriminate.
  intros F. injection F as <-.
  assert (Hin : In row matching) by (rewrite E; now left).
  apply filter_In in Hin. destruct Hin as [Hin Hp].
  apply andb_true_iff in Hp. destruct Hp as [Hp Hn].
  apply andb_true_iff in Hp. destruct Hp as [_ Hd].
  exists row. repeat split; try assumption.
  - now apply date_eqb_eq.
  - now apply String.eqb_eq.
Qed.

(** X13. When at most one school-info row carries the code pair, an id
    returned by [get_id_by_code] is listed by [get_with_id_by_code] with a
    meal of the requested name, and a [None] means that no listed meal has
    that name. *)
Theorem get_id_by_code_is_listed
        db edu_office_code standard_school_code date meal_name entries :
  (List.length (select_school_info edu_office_code standard_school_code db)
   <= 1)%nat ->
  fst (get_with_id_by_code edu_office_code standard_school_code date db)
  = Returned entries ->
  (forall i,
      fst (get_id_by_code subquery_many edu_office_code standard_school_code
                          date meal_name db) = Returned (Some i) ->
      exists entity, In (i, entity) entries /\ Meal.name entity = meal_name)
  /\ (fst (get_id_by_code subquery_many edu_office_code standard_school_code
                          date meal_name db) = Returned None ->
      forall i entity, In (i, entity) entries ->
                       Meal.name entity <> meal_name).
Proof.
  intros H Hentries.
  destruct (get_with_id_by_code_named db edu_office_code standard_school_code
                                      date meal_name H)
    as (entries' & E & Hnamed).
  rewrite Hentries in E. injection E as <-.
  rewrite get_id_by_code_eq,
    (select_meal_id_at_most_one subquery_many _ _ _ _ _ H).
  cbn [fst].
  destruct (meals_matching edu_office_code standard_school_code date
                           meal_name db) as [|m [|m' l]];
    simpl in *; (split; [intros i F|intros F]); try discriminate F.
  - intros i entity Hin Hname.
    assert (Hf : In (i, entity)
                    (filter (fun entry =>
                               String.eqb (Meal.name (snd entry)) meal_name)
                            entries)).
    { apply filter_In. split; [assumption|]. now apply String.eqb_eq. }
    rewrite Hnamed in Hf. destruct Hf.
  - injection F as <-.
    assert (Hf : In (MealSchema.id m, MealSchema.to_entity m)
                    (filter (fun entry =>
                               String.eqb (Meal.name (snd entry)) meal_name)
                            entries))
      by (rewrite Hnamed; now left).
    apply filter_In in Hf. destruct Hf as [Hin Hname].
    exists (MealSchema.to_entity m). split; [assumption|].
    now apply String.eqb_eq.
Qed.

(** X14. With unique primary keys on both tables, [get_with_id_by_code]
    lists no id twice, also when several school-info rows carry the code
    pair. *)
Theorem get_with_id_by_code_ids_distinct
        db edu_office_code standard_school_code date entries :
  NoDup (meal_ids db) ->
  NoDup (map SchoolInfoSchema.id (school_infos db)) ->
  fst (get_with_id_by_code edu_office_code standard_school_code date db)
  = Returned entries ->
  NoDup (map fst entries).
Proof.
  intros Hm Hs E. unfold get_with_id_by_code, bind in E.
  rewrite _get_schema_by_code_eq in E. simpl in E. injection E as <-.
  rewrite map_map. simpl. unfold select_school_info.
  induction (school_infos db) as [|s schools IH]; simpl; [constructor|].
  simpl in Hs. apply NoDup_cons_iff in Hs. destruct Hs as [Hs Hnd].
  specialize (IH Hnd).
  destruct (code_matches edu_office_code standard_school_code s);
    [|exact IH].
  simpl. rewrite map_app. apply NoDup_app.
  - unfold meals_and_date. unfold meal_ids in Hm.
    clear - Hm. induction (meals db) as [|m l IHl]; simpl; [constructor|].
    simpl in Hm. apply NoDup_cons_iff in Hm. destruct Hm as [Hm Hl].
    destruct (_ && _); [|now apply IHl].
    simpl. constructor; [|now apply IHl].
    intros Hin. apply Hm. apply in_map_iff in Hin.
    destruct Hin as (m' & <- & Hin). apply filter_In in Hin.
    apply in_map. tauto.
  - exact IH.
  - intros i Hi Hi'.
    apply in_map_iff in Hi. destruct Hi as (m & <- & Hin).
    apply in_meals_and_date in Hin. destruct Hin as (Hin & Hk & _).
    apply in_map_iff in Hi'. destruct Hi' as (m' & Hid & Hin').
    apply in_flat_map in Hin'. destruct Hin' as (s' & Hs' & Hin').
    apply in_meals_and_date in Hin'. destruct Hin' as (Hin' & Hk' & _).
    apply filter_In in Hs'. destruct Hs' as [Hs' _].
    assert (m' = m).
    { unfold meal_ids in Hm. clear - Hm Hin Hin' Hid.
      induction (meals db) as [|a l IHl]; [destruct Hin|].
      simpl in Hm. apply NoDup_cons_iff in Hm. destruct Hm as [Ha Hl].
      destruct Hin as [->|Hin], Hin' as [->|Hin'].
      - reflexivity.
      - elim Ha. rewrite <- Hid. now apply in_map.
      - elim Ha. rewrite Hid. now apply in_map.
      - now apply IHl. }
    subst m'. apply Hs. rewrite <- Hk, Hk'. now apply in_map.
Qed.

End Composition.

(* ================================================================= *)
(** ** The compositions on the sample states *)

(** X2 on the sample: the one listed lunch is read back by its id. *)
Lemma get_with_id_by_code_then_get_by_id_witness :
  NoDup (meal_ids Sample.db_lunch)
  /\ fst (get_with_id_by_code "B10" "7010057" Sample.monday Sample.db_lunch)
     = Returned [(1, MealSchema.to_entity (Sample.lunch_row 1 1))]
  /\ In (1, MealSchema.to_entity (Sample.lunch_row 1 1))
        [(1, MealSchema.to_entity (Sample.lunch_row 1 1))]
  /\ get_by_id 1 Sample.db_lunch
     = (Returned (Some (MealSchema.to_entity (Sample.lunch_row 1 1))),
        Sample.db_lunch).
Proof.
  assert (H : NoDup (meal_ids Sample.db_lunch)).
  { constructor; [intros []|constructor]. }
  split; [exact H|]. split; [reflexivity|]. split; [now left|].
  exact (get_with_id_by_code_then_get_by_id
           Sample.db_lunch "B10" "7010057" Sample.monday
           [(1, MealSchema.to_entity (Sample.lunch_row 1 1))] 1
           (MealSchema.to_entity (Sample.lunch_row 1 1))
           H eq_refl (or_introl eq_refl)).
Defined.

(** X3 on the sample: the stored lunch is found under its key. *)
Lemma get_by_id_present_witness :
  NoDup (meal_ids Sample.db_lunch)
  /\ In (Sample.lunch_row 1 1) (meals Sample.db_lunch)
  /\ get_by_id 1 Sample.db_lunch
     = (Returned (Some (MealSchema.to_entity (Sample.lunch_row 1 1))),
        Sample.db_lunch).
Proof.
  assert (H : NoDup (meal_ids Sample.db_lunch)).
  { constructor; [intros []|constructor]. }
  split; [exact H|]. split; [now left|].
  exact (get_by_id_present Sample.db_lunch (Sample.lunch_row 1 1) H
                           (or_introl eq_refl)).
Defined.

(** X4 on the sample: the first lunch of the school shows up in its Monday
    listing, without the comment of the input. *)
Lemma create_by_code_then_get_by_code_witness :
  create_by_code "B10" "7010057" Sample.lunch Sample.db_school
  = (Returned (inr (Some 1)), Sample.db_lunch)
  /\ exists before,
      get_by_code "B10" "7010057" Sample.monday Sample.db_school
      = (Returned before, Sample.db_school)
      /\ get_by_code "B10" "7010057" Sample.monday Sample.db_lunch
         = (Returned (before ++ [Meal.mk "중식" "bibimbap" 850 Sample.monday
                                         []]),
            Sample.db_lunch).
Proof.
  split; [reflexivity|].
  exact (create_by_code_then_get_by_code Sample.db_school "B10" "7010057"
                                         Sample.lunch (Some 1) Sample.db_lunch
                                         eq_refl).
Defined.

(** X5 on the sample: a second Monday lunch leaves Tuesday's listing alone. *)
Lemma create_by_code_keeps_other_dates_witness :
  Sample.tuesday <> Meal.date Sample.lunch
  /\ fst (get_by_code "B10" "7010057" Sample.tuesday
                      (snd (create_by_code "B10" "7010057" Sample.lunch
                                           Sample.db_lunch)))
     = fst (get_by_code "B10" "7010057" Sample.tuesday Sample.db_lunch).
Proof.
  assert (H : Sample.tuesday <> Meal.date Sample.lunch) by discriminate.
  split; [exact H|].
  exact (create_by_code_keeps_other_dates Sample.db_lunch "B10" "7010057"
                                          Sample.lunch "B10" "7010057"
                                          Sample.tuesday H).
Defined.

(** X6 on the sample: the second lunch gets the id 2, the lookup of the id 1
    is as before. *)
Lemma create_by_code_keeps_other_ids_witness :
  create_by_code "B10" "7010057" Sample.lunch Sample.db_lunch
  = (Returned (inr (Some 2)), Sample.db_twice)
  /\ 1 <> 2
  /\ fst (get_by_id 1 Sample.db_twice) = fst (get_by_id 1 Sample.db_lunch).
Proof.
  assert (H : 1 <> 2) by discriminate.
  split; [reflexivity|]. split; [exact H|].
  exact (create_by_code_keeps_other_ids Sample.db_lunch "B10" "7010057"
                                        Sample.lunch 2 Sample.db_twice 1
                                        eq_refl H).
Defined.

(** X7 on the sample: the first lunch of the school is found by its slot. *)
Lemma create_by_code_then_get_id_by_code_witness :
  create_by_code "B10" "7010057" Sample.lunch Sample.db_school
  = (Returned (inr (Some 1)), Sample.db_lunch)
  /\ meals_matching "B10" "7010057" (Meal.date Sample.lunch)
                    (Meal.name Sample.lunch) Sample.db_school = []
  /\ get_id_by_code Sample.strict "B10" "7010057" (Meal.date Sample.lunch)
                    (Meal.name Sample.lunch) Sample.db_lunch
     = (Returned (Some 1), Sample.db_lunch).
Proof.
  split; [reflexivity|]. split; [reflexivity|].
  exact (create_by_code_then_get_id_by_code
           Sample.strict Sample.db_school "B10" "7010057" Sample.lunch
           (Some 1) Sample.db_lunch eq_refl eq_refl).
Defined.

(** X8 on the sample: the lunch is created a second time. *)
Lemma create_by_code_twice_witness :
  wf_db Sample.db_school
  /\ create_by_code "B10" "7010057" Sample.lunch Sample.db_school
     = (Returned (inr (Some 1)), Sample.db_lunch)
  /\ exists id2 db2,
      create_by_code "B10" "7010057" Sample.lunch Sample.db_lunch
      = (Returned (inr id2), db2)
      /\ id2 <> Some 1
      /\ get_id_by_code Sample.strict "B10" "7010057"
                        (Meal.date Sample.lunch) (Meal.name Sample.lunch) db2
         = (Raised MultipleResultsFound, db2).
Proof.
  assert (H : wf_db Sample.db_school) by (split; constructor).
  split; [exact H|]. split; [reflexivity|].
  exact (create_by_code_twice Sample.strict Sample.db_school "B10" "7010057"
                              Sample.lunch (Some 1) Sample.db_lunch H
                              eq_refl).
Defined.

(** X11 on the sample: no school carries the office code C10. *)
Lemma lookups_for_unknown_school_witness :
  (forall s, In s (school_infos Sample.db_lunch) ->
             ~ (SchoolInfoSchema.edu_office_code s = "C10"%string
                /\ SchoolInfoSchema.standard_school_code s = "7010057"%string))
  /\ get_by_code "C10" "7010057" Sample.monday Sample.db_lunch
     = (Returned [], Sample.db_lunch)
  /\ get_with_id_by_code "C10" "7010057" Sample.monday Sample.db_lunch
     = (Returned [], Sample.db_lunch)
  /\ get_id_by_code Sample.strict "C10" "7010057" Sample.monday "중식"
                    Sample.db_lunch
     = (Returned None, Sample.db_lunch).
Proof.
  assert (H : forall s, In s (school_infos Sample.db_lunch) ->
                ~ (SchoolInfoSchema.edu_office_code s = "C10"%string
                   /\ SchoolInfoSchema.standard_school_code s
                      = "7010057"%string)).
  { intros s [<-|[]] [E _]. discriminate E. }
  split; [exact H|].
  exact (lookups_for_unknown_school Sample.strict Sample.db_lunch "C10"
                                    "7010057" Sample.monday "중식" H).
Defined.

(** X12 on the sample: the id 1 belongs to a Monday lunch. *)
Lemma get_id_by_code_sound_witness :
  fst (get_id_by_code Sample.strict "B10" "7010057" Sample.monday "중식"
                      Sample.db_lunch)
  = Returned (Some 1)
  /\ exists row,
      In row (meals Sample.db_lunch)
      /\ MealSchema.id row = 1
      /\ MealSchema.date row = Sample.monday
      /\ MealSchema.name row = "중식"%string.
Proof.
  split; [reflexivity|].
  exact (get_id_by_code_sound Sample.strict Sample.db_lunch "B10" "7010057"
                              Sample.monday "중식" 1 eq_refl).
Defined.

(** X13 on the sample: one school, the lunch stored once. *)
Lemma get_id_by_code_is_listed_witness :
  (List.length (select_school_info "B10" "7010057" Sample.db_lunch) <= 1)%nat
  /\ fst (get_with_id_by_code "B10" "7010057" Sample.monday Sample.db_lunch)
     = Returned [(1, MealSchema.to_entity (Sample.lunch_row 1 1))]
  /\ (forall i,
         fst (get_id_by_code Sample.strict "B10" "7010057" Sample.monday
                             "중식" Sample.db_lunch) = Returned (Some i) ->
         exists entity,
           In (i, entity) [(1, MealSchema.to_entity (Sample.lunch_row 1 1))]
           /\ Meal.name entity = "중식"%string)
  /\ (fst (get_id_by_code Sample.strict "B10" "7010057" Sample.monday
                          "중식" Sample.db_lunch) = Returned None ->
      forall i entity,
        In (i, entity) [(1, MealSchema.to_entity (Sample.lunch_row 1 1))] ->
        Meal.name entity <> "중식"%string).
Proof.
  split; [apply le_n|]. split; [reflexivity|].
  exact (get_id_by_code_is_listed
           Sample.strict Sample.db_lunch "B10" "7010057" Sample.monday "중식"
           [(1, MealSchema.to_entity (Sample.lunch_row 1 1))]
           (le_n 1) eq_refl).
Defined.

(** X14 on the sample: two school-info rows share the code pair. *)
Lemma get_with_id_by_code_ids_distinct_witness :
  NoDup (meal_ids Sample.db_twins)
  /\ NoDup (map SchoolInfoSchema.id (school_infos Sample.db_twins))
  /\ fst (get_with_id_by_code "B10" "7010057" Sample.monday Sample.db_twins)
     = Returned [(1, MealSchema.to_entity (Sample.lunch_row 1 2))]
  /\ NoDup (map fst [(1, MealSchema.to_entity (Sample.lunch_row 1 2))]).
Proof.
  assert (Hm : NoDup (meal_ids Sample.db_twins)).
  { constructor; [intros []|constructor]. }
  assert (Hs : NoDup (map SchoolInfoSchema.id
                          (school_infos Sample.db_twins))).
  { constructor; [intros [E|[]]; discriminate E|].
    constructor; [intros []|constructor]. }
  split; [exact Hm|]. split; [exact Hs|]. split; [reflexivity|].
  exact (get_with_id_by_code_ids_distinct
           Sample.db_twins "B10" "7010057" Sample.monday
           [(1, MealSchema.to_entity (Sample.lunch_row 1 2))]
           Hm Hs eq_refl).
Defined.

(** X15 on the sample: the keys stay unique and below the sequence when the
    first lunch is created. *)
Lemma create_by_code_preserves_wf_witness :
  wf_db Sample.db_school
  /\ wf_db (snd (create_by_code "B10" "7010057" Sample.lunch
                                Sample.db_school)).
Proof.
  assert (H : wf_db Sample.db_school) by (split; constructor).
  split; [exact H|].
  exact (create_by_code_preserves_wf Sample.db_school "B10" "7010057"
                                     Sample.lunch H).
Defined.

(** X10 on the sample: one school carries the pair and has a lunch. *)
Lemma create_by_code_outcome_witness :
  ids_below_seq Sample.db_lunch
  /\ (fst (create_by_code "B10" "7010057" Sample.lunch Sample.db_lunch)
      = Returned (inl SCHOOL_INFO_NOT_FOUND)
      <-> List.length (select_school_info "B10" "7010057" Sample.db_lunch)
          = 0%nat)
  /\ ((exists i,
         fst (create_by_code "B10" "7010057" Sample.lunch Sample.db_lunch)
         = Returned (inr (Some i)))
      <-> List.length (select_school_info "B10" "7010057" Sample.db_lunch)
          = 1%nat)
  /\ (fst (create_by_code "B10" "7010057" Sample.lunch Sample.db_lunch)
      = Raised MultipleResultsFound
      <-> (2 <= List.length
                  (select_school_info "B10" "7010057" Sample.db_lunch))%nat).
Proof.
  assert (H : ids_below_seq Sample.db_lunch).
  { constructor; [reflexivity|constructor]. }
  split; [exact H|].
  exact (create_by_code_outcome Sample.db_lunch "B10" "7010057" Sample.lunch
                                H).
Defined.
